(** * VeriFloat: bounded portfolio returns checked through an SMT solver

    The repository holds three checkers ([verifloat.py], [verifloat_fp.py],
    [verifloat_multi.py]) and a runner ([test_cases.py]).  Each checker
    declares real-valued symbolic variables, lists bound constraints, adds
    the negated bound property to a fresh z3 solver and branches on the
    answer of [solver.check()].

    The development embeds
    - the z3 terms and atoms the scripts build, as an abstract syntax;
    - their meaning over the rationals (executable, used to plug a model
      back into the constraints) and over the reals (the theory z3 decides);
    - the solver object, standard output and Python's return values, in a
      small state-and-exception monad over an explicit process state;
    - the three checkers and [run_all_tests], statement by statement.

    The decision procedure itself is not part of the repository: it is a
    section variable [z3_check], constrained where needed by the contract
    [sound]. *)

From Stdlib Require Import List String Ascii Bool Arith Lia.
From Stdlib Require Import ZArith QArith Qreals Reals Lra.
Import ListNotations.

Set Implicit Arguments.

(** ** z3 terms and atoms *)

(** [Real('x')] is [Var "x"]; a Python number on one side of an overloaded
    operator is coerced by z3py to an exact rational numeral ([Num]); [+]
    and [*] on [ArithRef] build [Add] and [Mul]. *)
Inductive expr : Type :=
| Var (name : string)
| Num (q : Q)
| Add (a b : expr)
| Mul (a b : expr).

(** The comparisons [>=], [<=], [<], [>] on [ArithRef], and [Or] as the
    scripts call it, with two arguments. *)
Inductive bexpr : Type :=
| Geq (a b : expr)
| Leq (a b : expr)
| Less (a b : expr)
| Greater (a b : expr)
| Or (p q : bexpr).

Declare Scope z3_scope.
Delimit Scope z3_scope with z3.
Bind Scope z3_scope with expr.
Infix "+" := Add : z3_scope.
Infix "*" := Mul : z3_scope.
Infix ">=" := Geq : z3_scope.
Infix "<=" := Leq : z3_scope.
Infix "<" := Less : z3_scope.
Infix ">" := Greater : z3_scope.

Definition Real (name : string) : expr := Var name.

(** A z3 model: the list of interpretations [x = v] it prints.  A variable
    the model leaves out reads as 0 (model completion). *)
Definition model : Type := list (string * Q).

Fixpoint model_get (m : model) (x : string) : Q :=
  match m with
  | [] => 0%Q
  | (y, v) :: m' => if String.eqb x y then v else model_get m' x
  end.

(** ** Meaning over the rationals (executable) *)

Fixpoint evalQ (m : string -> Q) (e : expr) : Q :=
  match e with
  | Var x => m x
  | Num q => q
  | Add a b => (evalQ m a + evalQ m b)%Q
  | Mul a b => (evalQ m a * evalQ m b)%Q
  end.

Definition Qlt_bool (x y : Q) : bool := negb (Qle_bool y x).

Fixpoint holdsb (m : string -> Q) (f : bexpr) : bool :=
  match f with
  | Geq a b => Qle_bool (evalQ m b) (evalQ m a)
  | Leq a b => Qle_bool (evalQ m a) (evalQ m b)
  | Less a b => Qlt_bool (evalQ m a) (evalQ m b)
  | Greater a b => Qlt_bool (evalQ m b) (evalQ m a)
  | Or p q => holdsb m p || holdsb m q
  end.

(** The model satisfies every assertion of the list. *)
Definition models (m : model) (fs : list bexpr) : bool :=
  forallb (holdsb (model_get m)) fs.

(** ** Meaning over the reals *)

Fixpoint evalR (rho : string -> R) (e : expr) : R :=
  match e with
  | Var x => rho x
  | Num q => Q2R q
  | Add a b => (evalR rho a + evalR rho b)%R
  | Mul a b => (evalR rho a * evalR rho b)%R
  end.

Fixpoint holds (rho : string -> R) (f : bexpr) : Prop :=
  match f with
  | Geq a b => (evalR rho b <= evalR rho a)%R
  | Leq a b => (evalR rho a <= evalR rho b)%R
  | Less a b => (evalR rho a < evalR rho b)%R
  | Greater a b => (evalR rho b < evalR rho a)%R
  | Or p q => holds rho p \/ holds rho q
  end.

Definition satisfies (rho : string -> R) (fs : list bexpr) : Prop :=
  Forall (holds rho) fs.

Definition satisfiable (fs : list bexpr) : Prop :=
  exists rho, satisfies rho fs.

(** The real valuation a model stands for. *)
Definition valuation (m : model) : string -> R :=
  fun x => Q2R (model_get m x).

(** ** Process state, Python values and the monad of the scripts *)

(** [solver.check()] answers one of three values; the model is fetched
    afterwards with [solver.model()]. *)
Inductive CheckSatResult : Type := sat | unsat | unknown.

Definition CheckSatResult_eqb (a b : CheckSatResult) : bool :=
  match a, b with
  | sat, sat | unsat, unsat | unknown, unknown => true
  | _, _ => false
  end.

(** What the decision procedure finds for a list of assertions. *)
Inductive answer : Type :=
| Sat (m : model)
| Unsat
| Unknown.

Definition verdict_of (a : answer) : CheckSatResult :=
  match a with
  | Sat _ => sat
  | Unsat => unsat
  | Unknown => unknown
  end.

Definition model_of (a : answer) : option model :=
  match a with
  | Sat m => Some m
  | _ => None
  end.

(** A [Solver] object: the assertions added so far and the model left by
    the last [check], if it found one. *)
Record Solver : Type := mkSolver {
  assertions : list bexpr;
  last_model : option model
}.

(** The state of the Python process the scripts can touch: the solver
    objects alive, by handle, and what was written to standard output, one
    entry per [print] call. *)
Record world : Type := mkWorld {
  solvers : list Solver;
  stdout : list string
}.

Definition empty_world : world := mkWorld [] [].

(** Values the checkers return and [print] receives. *)
Inductive pyval : Type :=
| PyStr (s : string)
| PyTuple (s : string) (m : model)
| PyModel (m : model)
| PyNone.

(** State with failure: [None] is a raised exception. *)
Definition M (A : Type) : Type := world -> option (A * world).

Definition ret {A} (a : A) : M A := fun w => Some (a, w).

Definition bind {A B} (c : M A) (k : A -> M B) : M B :=
  fun w => match c w with
           | Some (a, w') => k a w'
           | None => None
           end.

Notation "x <- c ;; k" := (bind c (fun x => k))
  (at level 61, c at next level, right associativity).
Notation "c ;;; k" := (bind c (fun _ => k))
  (at level 61, right associativity).

Fixpoint list_set {A} (l : list A) (i : nat) (a : A) : list A :=
  match l, i with
  | [], _ => []
  | _ :: t, O => a :: t
  | h :: t, S j => h :: list_set t j a
  end.

(** The character the runner's headers start with. *)
Definition newline : string := String (ascii_of_nat 10) EmptyString.

Section Scripts.

(** The engine behind [Solver.check] and z3's printer for models: both
    live outside the repository. *)
Variable z3_check : list bexpr -> answer.
Variable repr_model : model -> string.

(** [Solver()]: a new object with no assertion, under a new handle. *)
Definition Solver_new : M nat :=
  fun w => Some (List.length (solvers w),
                 mkWorld (solvers w ++ [mkSolver [] None]) (stdout w)).

(** [solver.add(...)]: the assertions are appended to that object. *)
Definition add (h : nat) (fs : list bexpr) : M unit :=
  fun w => match nth_error (solvers w) h with
           | Some s =>
               Some (tt, mkWorld
                           (list_set (solvers w) h
                              (mkSolver (assertions s ++ fs) (last_model s)))
                           (stdout w))
           | None => None
           end.

(** [solver.check()]: the engine is run on the object's assertions. *)
Definition check (h : nat) : M CheckSatResult :=
  fun w => match nth_error (solvers w) h with
           | Some s =>
               let a := z3_check (assertions s) in
               Some (verdict_of a,
                     mkWorld
                       (list_set (solvers w) h
                          (mkSolver (assertions s) (model_of a)))
                       (stdout w))
           | None => None
           end.

(** [solver.model()]: raises when the last check left no model. *)
Definition get_model (h : nat) : M model :=
  fun w => match nth_error (solvers w) h with
           | Some s => match last_model s with
                       | Some m => Some (m, w)
                       | None => None
                       end
           | None => None
           end.

(** [str(v)] as [print] computes it.  The two messages that occur in a
    tuple hold no quote and no escape, so their [repr] is the text between
    single quotes. *)
Definition py_str (v : pyval) : string :=
  match v with
  | PyStr s => s
  | PyTuple s m => "('" ++ s ++ "', " ++ repr_model m ++ ")"
  | PyModel m => repr_model m
  | PyNone => "None"
  end.

(** [print(v)]: one write of [str(v)], ended by a newline. *)
Definition print (v : pyval) : M unit :=
  fun w => Some (tt, mkWorld (solvers w) (stdout w ++ [py_str v])).


(** *** verifloat.py *)

(** The locals [constraints] and [portfolio_return] of each function are
    given names of their own, so that the properties can refer to them. *)
Definition constraints_single : list bexpr :=
  let w1 := Real "w1" in let w2 := Real "w2" in let w3 := Real "w3" in
  let r1 := Real "r1" in let r2 := Real "r2" in let r3 := Real "r3" in
  [ w1 >= Num 0; w1 <= Num 1;
    w2 >= Num 0; w2 <= Num 1;
    w3 >= Num 0; w3 <= Num 1;
    (w1 + w2 + w3) <= Num 1;
    r1 >= Num (-1); r1 <= Num 1;
    r2 >= Num (-1); r2 <= Num 1;
    r3 >= Num (-1); r3 <= Num 1 ]%z3.

Definition return_single : expr :=
  let w1 := Real "w1" in let w2 := Real "w2" in let w3 := Real "w3" in
  let r1 := Real "r1" in let r2 := Real "r2" in let r3 := Real "r3" in
  (w1 * r1 + w2 * r2 + w3 * r3)%z3.

Definition holds_msg_single : string :=
  "Property holds: Portfolio return within [-1, 1]".
Definition violation_msg_single : string := "Violation found!".

Definition verify_portfolio_return : M pyval :=
  let portfolio_return := return_single in
  let constraints := constraints_single in
  solver <- Solver_new ;;
  add solver constraints ;;;
  add solver [Or (portfolio_return < Num (-1))
                 (portfolio_return > Num 1)]%z3 ;;;
  result <- check solver ;;
  if CheckSatResult_eqb result sat
  then m <- get_model solver ;; ret (PyTuple violation_msg_single m)
  else ret (PyStr holds_msg_single).

(** *** verifloat_fp.py *)

(** z3py turns the float literals [-0.001] and [0.001] into numerals from
    their decimal text, so the bounds are the exact rationals. *)
Definition constraints_fp : list bexpr :=
  let w1 := Real "w1" in let w2 := Real "w2" in let w3 := Real "w3" in
  let r1 := Real "r1" in let r2 := Real "r2" in let r3 := Real "r3" in
  let epsilon := Real "epsilon" in
  [ w1 >= Num 0; w1 <= Num 1;
    w2 >= Num 0; w2 <= Num 1;
    w3 >= Num 0; w3 <= Num 1;
    (w1 + w2 + w3) <= Num 1;
    r1 >= Num (-1); r1 <= Num 1;
    r2 >= Num (-1); r2 <= Num 1;
    r3 >= Num (-1); r3 <= Num 1;
    epsilon >= Num (-1 # 1000); epsilon <= Num (1 # 1000) ]%z3.

Definition return_fp : expr :=
  let w1 := Real "w1" in let w2 := Real "w2" in let w3 := Real "w3" in
  let r1 := Real "r1" in let r2 := Real "r2" in let r3 := Real "r3" in
  let epsilon := Real "epsilon" in
  (w1 * r1 + w2 * r2 + w3 * r3 + epsilon)%z3.

Definition holds_msg_fp : string :=
  "Property holds even under small numerical errors.".
Definition violation_msg_fp : string := "Violation with numerical drift!".

Definition verify_portfolio_with_fp_error : M pyval :=
  let portfolio_return := return_fp in
  let constraints := constraints_fp in
  solver <- Solver_new ;;
  add solver constraints ;;;
  add solver [Or (portfolio_return < Num (-1))
                 (portfolio_return > Num 1)]%z3 ;;;
  result <- check solver ;;
  if CheckSatResult_eqb result sat
  then m <- get_model solver ;; ret (PyTuple violation_msg_fp m)
  else ret (PyStr holds_msg_fp).

(** *** verifloat_multi.py *)

(** The list after the [for] loop: each pass appends the two bounds of one
    return variable. *)
Definition constraints_multi : list bexpr :=
  let w1 := Real "w1" in let w2 := Real "w2" in let w3 := Real "w3" in
  let r1_1 := Real "r1_1" in let r2_1 := Real "r2_1" in
  let r3_1 := Real "r3_1" in
  let r1_2 := Real "r1_2" in let r2_2 := Real "r2_2" in
  let r3_2 := Real "r3_2" in
  let constraints :=
    [ w1 >= Num 0; w1 <= Num 1;
      w2 >= Num 0; w2 <= Num 1;
      w3 >= Num 0; w3 <= Num 1;
      (w1 + w2 + w3) <= Num 1 ]%z3 in
  fold_left (fun cs r => cs ++ [r >= Num (-1); r <= Num 1]%z3)
            [r1_1; r2_1; r3_1; r1_2; r2_2; r3_2] constraints.

Definition return_multi : expr :=
  let w1 := Real "w1" in let w2 := Real "w2" in let w3 := Real "w3" in
  let r1_1 := Real "r1_1" in let r2_1 := Real "r2_1" in
  let r3_1 := Real "r3_1" in
  let r1_2 := Real "r1_2" in let r2_2 := Real "r2_2" in
  let r3_2 := Real "r3_2" in
  let period1_return := (w1 * r1_1 + w2 * r2_1 + w3 * r3_1)%z3 in
  let period2_return := (w1 * r1_2 + w2 * r2_2 + w3 * r3_2)%z3 in
  (period1_return + period2_return)%z3.

Definition holds_msg_multi : string :=
  "Multi-period portfolio return is consistent.".
Definition violation_msg_multi : string :=
  "Violation found in multi-period model!".

(** Both branches end without a [return]: the call yields [None]. *)
Definition verify_two_period_portfolio : M pyval :=
  let total_return := return_multi in
  let constraints := constraints_multi in
  solver <- Solver_new ;;
  add solver constraints ;;;
  add solver [Or (total_return < Num (-2))
                 (total_return > Num 2)]%z3 ;;;
  result <- check solver ;;
  if CheckSatResult_eqb result sat
  then print (PyStr violation_msg_multi) ;;;
       m <- get_model solver ;;
       print (PyModel m) ;;;
       ret PyNone
  else print (PyStr holds_msg_multi) ;;;
       ret PyNone.

(** *** test_cases.py *)

Definition header_single : string :=
  newline ++ "Running Basic Portfolio Return Test:".
Definition header_fp : string :=
  newline ++ "Running Floating-Point Drift Test:".
Definition header_multi : string :=
  newline ++ "Running Multi-Period Portfolio Return Test:".

Definition run_all_tests : M pyval :=
  print (PyStr header_single) ;;;
  v1 <- verify_portfolio_return ;;
  print v1 ;;;
  print (PyStr header_fp) ;;;
  v2 <- verify_portfolio_with_fp_error ;;
  print v2 ;;;
  print (PyStr header_multi) ;;;
  v3 <- verify_two_period_portfolio ;;
  print v3 ;;;
  ret PyNone.

End Scripts.

(** ** The queries the checkers submit *)

(** The negated property: the return is below [-B] or above [B]. *)
Definition negated_bound (e : expr) (B : Q) : bexpr :=
  Or (e < Num (- B))%z3 (e > Num B)%z3.

Definition query_single : list bexpr :=
  constraints_single ++ [negated_bound return_single 1].
Definition query_fp : list bexpr :=
  constraints_fp ++ [negated_bound return_fp 1].
Definition query_multi : list bexpr :=
  constraints_multi ++ [negated_bound return_multi 2].

(** ** The contract of the solving engine *)

(** A sound engine: a model it returns satisfies the assertions, and it
    answers unsat only when no real valuation satisfies them.  It may
    always give up. *)
Definition sound (z3_check : list bexpr -> answer) : Prop :=
  forall fs, match z3_check fs with
             | Sat m => models m fs = true
             | Unsat => ~ satisfiable fs
             | Unknown => True
             end.

(** The engine reaches a decision on the three queries of the scripts. *)
Definition decides (z3_check : list bexpr -> answer) : Prop :=
  z3_check query_single <> Unknown /\
  z3_check query_fp <> Unknown /\
  z3_check query_multi <> Unknown.

(** ** Concrete engines *)

(** An engine that tries a list of candidate models and gives up when none
    fits. *)
Definition try_models (cands : list model) (fs : list bexpr) : answer :=
  match find (fun m => models m fs) cands with
  | Some m => Sat m
  | None => Unknown
  end.

(** An engine that never decides: every check ends on its resource limit. *)
Definition timeout_check (fs : list bexpr) : answer := Unknown.

Definition Q_eqb (p q : Q) : bool :=
  Z.eqb (Qnum p) (Qnum q) && Pos.eqb (Qden p) (Qden q).

Fixpoint expr_eqb (a b : expr) : bool :=
  match a, b with
  | Var x, Var y => String.eqb x y
  | Num p, Num q => Q_eqb p q
  | Add a1 a2, Add b1 b2 => expr_eqb a1 b1 && expr_eqb a2 b2
  | Mul a1 a2, Mul b1 b2 => expr_eqb a1 b1 && expr_eqb a2 b2
  | _, _ => false
  end.

Fixpoint bexpr_eqb (f g : bexpr) : bool :=
  match f, g with
  | Geq a b, Geq c d => expr_eqb a c && expr_eqb b d
  | Leq a b, Leq c d => expr_eqb a c && expr_eqb b d
  | Less a b, Less c d => expr_eqb a c && expr_eqb b d
  | Greater a b, Greater c d => expr_eqb a c && expr_eqb b d
  | Or p q, Or r s => bexpr_eqb p r && bexpr_eqb q s
  | _, _ => false
  end.

Fixpoint query_eqb (fs gs : list bexpr) : bool :=
  match fs, gs with
  | [], [] => true
  | f :: fs', g :: gs' => bexpr_eqb f g && query_eqb fs' gs'
  | _, _ => false
  end.

(** The assignments at the corners of the drift scenario. *)
Definition drift_corner_up : model :=
  [("w1", 1); ("r1", 1); ("epsilon", 1 # 1000)]%string%Q.
Definition drift_corner_down : model :=
  [("w1", 1); ("r1", -1); ("epsilon", -1 # 1000)]%string%Q.

(** The equality case of the two-period scenario. *)
Definition two_period_corner : model :=
  [("w1", 1); ("r1_1", 1); ("r1_2", 1)]%string%Q.

(** An engine that decides the three queries of the scripts: it knows the
    single-period and two-period queries to be unsatisfiable, tries the
    corner of the drift scenario, and gives up on anything else. *)
Definition reference_check (fs : list bexpr) : answer :=
  if query_eqb fs query_single || query_eqb fs query_multi then Unsat
  else try_models [drift_corner_up] fs.

(** ** Vocabulary of the properties *)

(** The value of [e] under the model lies strictly outside [[-B, B]]. *)
Definition outside (m : model) (e : expr) (B : Q) : Prop :=
  (evalQ (model_get m) e < - B \/ B < evalQ (model_get m) e)%Q.

(** The same call made twice in a row, the second in the state the first
    one left. *)
Definition twice {A} (c : M A) : M (A * A) :=
  a <- c ;; b <- c ;; ret (a, b).

(** What a call appends to standard output. *)
Definition written {A} (c : M A) (w : world) : option (list string) :=
  match c w with
  | Some (_, w') => Some (skipn (List.length (stdout w)) (stdout w'))
  | None => None
  end.

(** What a call returns. *)
Definition returned {A} (c : M A) (w : world) : option A :=
  match c w with
  | Some (a, _) => Some a
  | None => None
  end.

(** ** Results by answer *)

(** What the single-period checker returns, by the engine's answer. *)
Definition result_single (a : answer) : pyval :=
  match a with
  | Sat m => PyTuple violation_msg_single m
  | _ => PyStr holds_msg_single
  end.

Definition result_fp (a : answer) : pyval :=
  match a with
  | Sat m => PyTuple violation_msg_fp m
  | _ => PyStr holds_msg_fp
  end.

(** What the two-period checker prints, given the printer of models. *)
Definition lines_multi (repr_model : model -> string) (a : answer)
  : list string :=
  match a with
  | Sat m => [violation_msg_multi; repr_model m]
  | _ => [holds_msg_multi]
  end.

(** The solver object a checker leaves behind. *)
Definition session_of (z3_check : list bexpr -> answer) (fs : list bexpr)
  : Solver :=
  mkSolver fs (model_of (z3_check fs)).

(** ** The scripts run as programs *)

(** The [if __name__ == "__main__":] block of each file.  The first two
    print what their checker returns; the third calls its checker and drops
    the value; the fourth calls the runner. *)
Definition main_verifloat (z3_check : list bexpr -> answer)
           (repr_model : model -> string) : M unit :=
  v <- verify_portfolio_return z3_check ;;
  print repr_model v.

Definition main_verifloat_fp (z3_check : list bexpr -> answer)
           (repr_model : model -> string) : M unit :=
  v <- verify_portfolio_with_fp_error z3_check ;;
  print repr_model v.

Definition main_verifloat_multi (z3_check : list bexpr -> answer)
           (repr_model : model -> string) : M unit :=
  verify_two_period_portfolio z3_check repr_model ;;;
  ret tt.

Definition main_test_cases (z3_check : list bexpr -> answer)
           (repr_model : model -> string) : M unit :=
  run_all_tests z3_check repr_model ;;;
  ret tt.

(** ** Valuations derived from a valuation *)

(** The names the three scripts share for the weights. *)
Definition is_weight (x : string) : bool :=
  String.eqb x "w1" || String.eqb x "w2" || String.eqb x "w3".

(** The returns of the single-period scripts. *)
Definition is_return (x : string) : bool :=
  String.eqb x "r1" || String.eqb x "r2" || String.eqb x "r3".

(** The valuation with every quantity but the weights negated. *)
Definition mirror (rho : string -> R) : string -> R :=
  fun x => if is_weight x then rho x else (- rho x)%R.

(** Period [k] of a two-period valuation, read with the names of the
    single-period script: [r1] is [r1_k], and so on. *)
Definition period (k : string) (rho : string -> R) : string -> R :=
  fun x => if is_return x then rho (x ++ "_" ++ k)%string else rho x.

(** All of the portfolio in the first asset, at its best return. *)
Definition single_corner : model := [("w1", 1); ("r1", 1)]%string%Q.

(** ** Bridge between the two meanings *)

Lemma evalR_Q2R (m : string -> Q) (e : expr) :
  evalR (fun x => Q2R (m x)) e = Q2R (evalQ m e).
Proof.
  induction e as [x | q | a IHa b IHb | a IHa b IHb]; simpl.
  - reflexivity.
  - reflexivity.
  - now rewrite IHa, IHb, Q2R_plus.
  - now rewrite IHa, IHb, Q2R_mult.
Qed.

Lemma Qle_bool_Rle (x y : Q) : Qle_bool x y = true <-> (Q2R x <= Q2R y)%R.
Proof.
  rewrite Qle_bool_iff. split; [apply Qle_Rle | apply Rle_Qle].
Qed.

Lemma Qlt_bool_Rlt (x y : Q) : Qlt_bool x y = true <-> (Q2R x < Q2R y)%R.
Proof.
  unfold Qlt_bool. rewrite negb_true_iff.
  split.
  - intros H. apply Qlt_Rlt. apply Qnot_le_lt. intros Hle.
    apply Qle_bool_iff in Hle. congruence.
  - intros H. apply Rlt_Qlt in H.
    destruct (Qle_bool y x) eqn:E; [| reflexivity].
    apply Qle_bool_iff in E. exfalso. exact (Qlt_not_le _ _ H E).
Qed.

Lemma holdsb_holds (m : string -> Q) (f : bexpr) :
  holdsb m f = true <-> holds (fun x => Q2R (m x)) f.
Proof.
  induction f as [a b | a b | a b | a b | p IHp q IHq]; simpl;
    rewrite ?evalR_Q2R.
  - apply Qle_bool_Rle.
  - apply Qle_bool_Rle.
  - apply Qlt_bool_Rlt.
  - apply Qlt_bool_Rlt.
  - rewrite orb_true_iff, IHp, IHq. reflexivity.
Qed.

Lemma models_satisfies (m : model) (fs : list bexpr) :
  models m fs = true <-> satisfies (valuation m) fs.
Proof.
  unfold models, satisfies, valuation.
  rewrite forallb_forall, Forall_forall.
  split; intros H f Hf; apply holdsb_holds; auto.
Qed.

Lemma models_satisfiable (m : model) (fs : list bexpr) :
  models m fs = true -> satisfiable fs.
Proof.
  intros H. exists (valuation m). now apply models_satisfies.
Qed.

(** ** Running a solver session *)

Lemma nth_error_app_length {A} (l : list A) (a : A) :
  nth_error (l ++ [a]) (List.length l) = Some a.
Proof.
  induction l as [| x l IH]; simpl; auto.
Qed.

Lemma list_set_app_length {A} (l : list A) (a b : A) :
  list_set (l ++ [a]) (List.length l) b = l ++ [b].
Proof.
  induction l as [| x l IH]; simpl; [reflexivity | now rewrite IH].
Qed.

Section Session.

Variable z3_check : list bexpr -> answer.

(** The statements shared by the three checkers, from [Solver()] to
    [solver.check()]: the new object holds the constraints followed by the
    negated property, the engine is asked once, about exactly that list,
    and no other object is touched. *)
Lemma session_run {A} (k : nat -> CheckSatResult -> M A)
      (cs : list bexpr) (n : bexpr) (w : world) :
  (solver <- Solver_new ;;
   add solver cs ;;;
   add solver [n] ;;;
   result <- check z3_check solver ;;
   k solver result) w
  = k (List.length (solvers w))
      (verdict_of (z3_check (cs ++ [n])))
      (mkWorld (solvers w ++
                  [mkSolver (cs ++ [n]) (model_of (z3_check (cs ++ [n])))])
               (stdout w)).
Proof.
  unfold bind, Solver_new, add, check. simpl.
  rewrite nth_error_app_length. simpl.
  rewrite list_set_app_length. simpl.
  rewrite nth_error_app_length. simpl.
  rewrite list_set_app_length. simpl.
  rewrite nth_error_app_length. simpl.
  rewrite list_set_app_length. reflexivity.
Qed.

Lemma get_model_last (sv : list Solver) (fs : list bexpr) (m : model)
      (out : list string) :
  get_model (List.length sv)
            (mkWorld (sv ++ [mkSolver fs (Some m)]) out)
  = Some (m, mkWorld (sv ++ [mkSolver fs (Some m)]) out).
Proof.
  unfold get_model. simpl. rewrite nth_error_app_length. reflexivity.
Qed.

(** The two branches that skip [solver.model()] compute; the sat branch
    reads back the model the check has just stored. *)
Ltac sat_branch a :=
  destruct a as [? | |]; [| reflexivity | reflexivity];
  cbn [verdict_of model_of CheckSatResult_eqb];
  unfold bind, print; cbn [solvers stdout];
  rewrite get_model_last.

Lemma verify_portfolio_return_run (w : world) :
  verify_portfolio_return z3_check w
  = Some (result_single (z3_check query_single),
          mkWorld (solvers w ++ [session_of z3_check query_single])
                  (stdout w)).
Proof.
  unfold verify_portfolio_return. rewrite session_run.
  change (constraints_single ++ [_]) with query_single.
  unfold session_of.
  sat_branch (z3_check query_single).
  reflexivity.
Qed.

Lemma verify_portfolio_with_fp_error_run (w : world) :
  verify_portfolio_with_fp_error z3_check w
  = Some (result_fp (z3_check query_fp),
          mkWorld (solvers w ++ [session_of z3_check query_fp]) (stdout w)).
Proof.
  unfold verify_portfolio_with_fp_error. rewrite session_run.
  change (constraints_fp ++ [_]) with query_fp.
  unfold session_of.
  sat_branch (z3_check query_fp).
  reflexivity.
Qed.

Lemma verify_two_period_portfolio_run (repr_model : model -> string)
      (w : world) :
  verify_two_period_portfolio z3_check repr_model w
  = Some (PyNone,
          mkWorld (solvers w ++ [session_of z3_check query_multi])
                  (stdout w ++
                     lines_multi repr_model (z3_check query_multi))).
Proof.
  unfold verify_two_period_portfolio. rewrite session_run.
  change (constraints_multi ++ [_]) with query_multi.
  unfold session_of.
  sat_branch (z3_check query_multi).
  cbn [solvers stdout py_str lines_multi].
  now rewrite <- app_assoc.
Qed.

End Session.

(** ** The constraint lists, read over the reals *)

Lemma Q2R_int (z : Z) : Q2R (z # 1) = IZR z.
Proof.
  unfold Q2R. simpl. rewrite Rinv_1. apply Rmult_1_r.
Qed.

Lemma Q2R_thousandth (z : Z) : Q2R (z # 1000) = (IZR z / 1000)%R.
Proof.
  reflexivity.
Qed.

Ltac read_constraints :=
  unfold satisfies;
  cbv [constraints_single constraints_fp constraints_multi
       return_single return_fp return_multi negated_bound
       query_single query_fp query_multi Real fold_left app Qopp Z.opp];
  repeat rewrite Forall_cons_iff;
  cbn [holds evalR];
  repeat rewrite Q2R_int; repeat rewrite Q2R_thousandth.

Local Open Scope R_scope.

Lemma satisfies_constraints_single (rho : string -> R) :
  satisfies rho constraints_single <->
  0 <= rho "w1"%string <= 1 /\ 0 <= rho "w2"%string <= 1 /\
  0 <= rho "w3"%string <= 1 /\
  rho "w1"%string + rho "w2"%string + rho "w3"%string <= 1 /\
  -1 <= rho "r1"%string <= 1 /\ -1 <= rho "r2"%string <= 1 /\
  -1 <= rho "r3"%string <= 1.
Proof.
  read_constraints. intuition auto using Forall_nil.
Qed.

Lemma satisfies_constraints_fp (rho : string -> R) :
  satisfies rho constraints_fp <->
  0 <= rho "w1"%string <= 1 /\ 0 <= rho "w2"%string <= 1 /\
  0 <= rho "w3"%string <= 1 /\
  rho "w1"%string + rho "w2"%string + rho "w3"%string <= 1 /\
  -1 <= rho "r1"%string <= 1 /\ -1 <= rho "r2"%string <= 1 /\
  -1 <= rho "r3"%string <= 1 /\
  -1 / 1000 <= rho "epsilon"%string <= 1 / 1000.
Proof.
  read_constraints. intuition auto using Forall_nil.
Qed.

Lemma satisfies_constraints_multi (rho : string -> R) :
  satisfies rho constraints_multi <->
  0 <= rho "w1"%string <= 1 /\ 0 <= rho "w2"%string <= 1 /\
  0 <= rho "w3"%string <= 1 /\
  rho "w1"%string + rho "w2"%string + rho "w3"%string <= 1 /\
  -1 <= rho "r1_1"%string <= 1 /\ -1 <= rho "r2_1"%string <= 1 /\
  -1 <= rho "r3_1"%string <= 1 /\
  -1 <= rho "r1_2"%string <= 1 /\ -1 <= rho "r2_2"%string <= 1 /\
  -1 <= rho "r3_2"%string <= 1.
Proof.
  read_constraints. intuition auto using Forall_nil.
Qed.

Lemma evalR_return_single (rho : string -> R) :
  evalR rho return_single
  = rho "w1"%string * rho "r1"%string + rho "w2"%string * rho "r2"%string
    + rho "w3"%string * rho "r3"%string.
Proof. reflexivity. Qed.

Lemma evalR_return_fp (rho : string -> R) :
  evalR rho return_fp
  = rho "w1"%string * rho "r1"%string + rho "w2"%string * rho "r2"%string
    + rho "w3"%string * rho "r3"%string + rho "epsilon"%string.
Proof. reflexivity. Qed.

Lemma evalR_return_multi (rho : string -> R) :
  evalR rho return_multi
  = rho "w1"%string * rho "r1_1"%string + rho "w2"%string * rho "r2_1"%string
    + rho "w3"%string * rho "r3_1"%string
    + (rho "w1"%string * rho "r1_2"%string
       + rho "w2"%string * rho "r2_2"%string
       + rho "w3"%string * rho "r3_2"%string).
Proof. reflexivity. Qed.

(** A weighted sum of three returns in [-1, 1], with weights that are not
    negative and sum to at most 1, stays in [-1, 1]. *)
Lemma weighted_sum_bound (w1 w2 w3 r1 r2 r3 : R) :
  0 <= w1 -> 0 <= w2 -> 0 <= w3 -> w1 + w2 + w3 <= 1 ->
  -1 <= r1 <= 1 -> -1 <= r2 <= 1 -> -1 <= r3 <= 1 ->
  -1 <= w1 * r1 + w2 * r2 + w3 * r3 <= 1.
Proof.
  intros H1 H2 H3 Hs [L1 U1] [L2 U2] [L3 U3].
  assert (A1 : 0 <= w1 * (1 - r1)) by (apply Rmult_le_pos; lra).
  assert (A2 : 0 <= w2 * (1 - r2)) by (apply Rmult_le_pos; lra).
  assert (A3 : 0 <= w3 * (1 - r3)) by (apply Rmult_le_pos; lra).
  assert (B1 : 0 <= w1 * (r1 + 1)) by (apply Rmult_le_pos; lra).
  assert (B2 : 0 <= w2 * (r2 + 1)) by (apply Rmult_le_pos; lra).
  assert (B3 : 0 <= w3 * (r3 + 1)) by (apply Rmult_le_pos; lra).
  split; lra.
Qed.

Lemma single_bound (rho : string -> R) :
  satisfies rho constraints_single -> -1 <= evalR rho return_single <= 1.
Proof.
  rewrite satisfies_constraints_single, evalR_return_single.
  intros (W1 & W2 & W3 & Ws & R1 & R2 & R3).
  apply weighted_sum_bound; tauto.
Qed.

Lemma fp_bound (rho : string -> R) :
  satisfies rho constraints_fp ->
  -1 - 1 / 1000 <= evalR rho return_fp <= 1 + 1 / 1000.
Proof.
  rewrite satisfies_constraints_fp, evalR_return_fp.
  intros (W1 & W2 & W3 & Ws & R1 & R2 & R3 & E).
  pose proof (@weighted_sum_bound (rho "w1"%string) (rho "w2"%string)
                (rho "w3"%string) (rho "r1"%string) (rho "r2"%string)
                (rho "r3"%string)) as B.
  lra.
Qed.

Lemma multi_bound (rho : string -> R) :
  satisfies rho constraints_multi -> -2 <= evalR rho return_multi <= 2.
Proof.
  rewrite satisfies_constraints_multi, evalR_return_multi.
  intros (W1 & W2 & W3 & Ws & R1 & R2 & R3 & S1 & S2 & S3).
  pose proof (@weighted_sum_bound (rho "w1"%string) (rho "w2"%string)
                (rho "w3"%string) (rho "r1_1"%string) (rho "r2_1"%string)
                (rho "r3_1"%string)) as B1.
  pose proof (@weighted_sum_bound (rho "w1"%string) (rho "w2"%string)
                (rho "w3"%string) (rho "r1_2"%string) (rho "r2_2"%string)
                (rho "r3_2"%string)) as B2.
  lra.
Qed.

(** A query is the constraints together with the negated property. *)
Lemma satisfies_query (rho : string -> R) (cs : list bexpr) (e : expr)
      (B : Z) :
  satisfies rho (cs ++ [negated_bound e (B # 1)]) <->
  satisfies rho cs /\ (evalR rho e < - IZR B \/ IZR B < evalR rho e).
Proof.
  unfold satisfies. rewrite Forall_app, Forall_cons_iff.
  unfold negated_bound. cbn [holds evalR].
  rewrite Q2R_opp, !Q2R_int.
  intuition auto using Forall_nil.
Qed.

Lemma query_single_unsat : ~ satisfiable query_single.
Proof.
  intros [rho H]. apply (satisfies_query rho constraints_single) in H.
  destruct H as [Hc Hn]. apply single_bound in Hc. lra.
Qed.

Lemma query_multi_unsat : ~ satisfiable query_multi.
Proof.
  intros [rho H]. apply (satisfies_query rho constraints_multi) in H.
  destruct H as [Hc Hn]. apply multi_bound in Hc. lra.
Qed.

Lemma query_fp_sat : models drift_corner_up query_fp = true.
Proof. reflexivity. Qed.

Local Close Scope R_scope.

(** ** Models of a query *)

Lemma Qlt_bool_iff (x y : Q) : Qlt_bool x y = true <-> (x < y)%Q.
Proof.
  rewrite Qlt_bool_Rlt. split; [apply Rlt_Qlt | apply Qlt_Rlt].
Qed.

Lemma models_query (m : model) (cs : list bexpr) (e : expr) (B : Q) :
  models m (cs ++ [negated_bound e B]) = true <->
  models m cs = true /\ outside m e B.
Proof.
  unfold models, outside. rewrite forallb_app, andb_true_iff.
  cbn [forallb holdsb negated_bound evalQ].
  rewrite andb_true_r, orb_true_iff, !Qlt_bool_iff. reflexivity.
Qed.

Lemma skipn_length_app {A} (l k : list A) :
  skipn (List.length l) (l ++ k) = k.
Proof.
  induction l as [| x l IH]; simpl; auto.
Qed.

(** ** The concrete engines meet the contract *)

Lemma Q_eqb_eq (p q : Q) : Q_eqb p q = true -> p = q.
Proof.
  destruct p as [a b], q as [c d]. unfold Q_eqb. simpl.
  rewrite andb_true_iff, Z.eqb_eq, Pos.eqb_eq.
  intros [-> ->]. reflexivity.
Qed.

Lemma expr_eqb_eq (a b : expr) : expr_eqb a b = true -> a = b.
Proof.
  revert b.
  induction a as [x | p | a1 IH1 a2 IH2 | a1 IH1 a2 IH2];
    intros [y | q | b1 b2 | b1 b2]; simpl; try discriminate.
  - rewrite String.eqb_eq. now intros ->.
  - intros H. now rewrite (Q_eqb_eq _ _ H).
  - rewrite andb_true_iff. intros [H1 H2].
    now rewrite (IH1 _ H1), (IH2 _ H2).
  - rewrite andb_true_iff. intros [H1 H2].
    now rewrite (IH1 _ H1), (IH2 _ H2).
Qed.

Lemma bexpr_eqb_eq (f g : bexpr) : bexpr_eqb f g = true -> f = g.
Proof.
  revert g.
  induction f as [a b | a b | a b | a b | p IHp q IHq];
    intros [c d | c d | c d | c d | r s]; simpl; try discriminate;
    rewrite andb_true_iff; intros [H1 H2].
  1-4: now rewrite (expr_eqb_eq _ _ H1), (expr_eqb_eq _ _ H2).
  now rewrite (IHp _ H1), (IHq _ H2).
Qed.

Lemma query_eqb_eq (fs gs : list bexpr) : query_eqb fs gs = true -> fs = gs.
Proof.
  revert gs.
  induction fs as [| f fs IH]; intros [| g gs]; simpl; try discriminate.
  - reflexivity.
  - rewrite andb_true_iff. intros [H1 H2].
    now rewrite (bexpr_eqb_eq _ _ H1), (IH _ H2).
Qed.

Lemma try_models_sound (cands : list model) : sound (try_models cands).
Proof.
  intros fs. unfold try_models.
  destruct (find (fun m => models m fs) cands) as [m |] eqn:E; [| exact I].
  apply find_some in E. tauto.
Qed.

Lemma timeout_check_sound : sound timeout_check.
Proof.
  intros fs. exact I.
Qed.

Lemma reference_check_sound : sound reference_check.
Proof.
  intros fs. unfold reference_check.
  destruct (query_eqb fs query_single) eqn:E1.
  - apply query_eqb_eq in E1. subst fs. exact query_single_unsat.
  - destruct (query_eqb fs query_multi) eqn:E2; simpl.
    + apply query_eqb_eq in E2. subst fs. exact query_multi_unsat.
    + apply try_models_sound.
Qed.

Lemma reference_check_decides : decides reference_check.
Proof.
  repeat split; vm_compute; discriminate.
Qed.

(** A sound engine that reaches a decision answers sat exactly on the
    satisfiable queries. *)
Lemma decided_sat_iff (z3_check : list bexpr -> answer) (q : list bexpr) :
  sound z3_check -> z3_check q <> Unknown ->
  ((exists m, z3_check q = Sat m) <-> satisfiable q) /\
  (z3_check q = Unsat <-> ~ satisfiable q).
Proof.
  intros Hs Hd. pose proof (Hs q) as H.
  destruct (z3_check q) as [m | |].
  - apply models_satisfiable in H. split; split; intros H'.
    + exact H.
    + now exists m.
    + discriminate.
    + contradiction.
  - split; split; intros H'.
    + destruct H' as [m Hm]. discriminate.
    + contradiction.
    + exact H.
    + reflexivity.
  - contradiction.
Qed.

(** * The scenarios *)

(** ** Scenario 1: single period *)

(** C3.  With weights in [0,1] that sum to at most 1 and returns in [-1,1],
    the return [w1*r1 + w2*r2 + w3*r3] lies in [-1,1]; the constraints
    together with the negated bound are unsatisfiable; and with a sound
    engine [verify_portfolio_return] returns its property-holds message,
    from every process state. *)
Theorem C3_single_period_holds
        (z3_check : list bexpr -> answer) (w : world)
        (Hsound : sound z3_check) :
  (forall rho, satisfies rho constraints_single ->
               (-1 <= evalR rho return_single <= 1)%R) /\
  ~ satisfiable query_single /\
  returned (verify_portfolio_return z3_check) w
  = Some (PyStr holds_msg_single).
Proof.
  split; [exact single_bound |].
  split; [exact query_single_unsat |].
  unfold returned. rewrite verify_portfolio_return_run.
  pose proof (Hsound query_single) as H.
  destruct (z3_check query_single) as [m | |]; try reflexivity.
  apply models_satisfiable in H. destruct (query_single_unsat H).
Qed.

Lemma C3_single_period_holds_witness :
  sound reference_check /\
  returned (verify_portfolio_return reference_check) empty_world
  = Some (PyStr holds_msg_single).
Proof.
  split; [exact reference_check_sound |].
  apply (C3_single_period_holds empty_world reference_check_sound).
Defined.

(** ** Scenario 3: two periods *)

(** C4.  With the shared weights in [0,1] summing to at most 1 and the six
    returns in [-1,1], the total return lies in [-2,2]; with a sound engine
    [verify_two_period_portfolio] prints its property-holds line and nothing
    else; the assignment w1 = 1, r1_1 = 1, r1_2 = 1 (all else 0) meets the
    constraints, totals exactly 2 and does not satisfy the negated bound. *)
Theorem C4_two_period_holds
        (z3_check : list bexpr -> answer) (repr_model : model -> string)
        (w : world) (Hsound : sound z3_check) :
  (forall rho, satisfies rho constraints_multi ->
               (-2 <= evalR rho return_multi <= 2)%R) /\
  ~ satisfiable query_multi /\
  written (verify_two_period_portfolio z3_check repr_model) w
  = Some [holds_msg_multi] /\
  models two_period_corner constraints_multi = true /\
  (evalQ (model_get two_period_corner) return_multi == 2)%Q /\
  holdsb (model_get two_period_corner) (negated_bound return_multi 2)
  = false.
Proof.
  split; [exact multi_bound |].
  split; [exact query_multi_unsat |].
  split; [| repeat split].
  unfold written. rewrite verify_two_period_portfolio_run.
  cbn [stdout]. rewrite skipn_length_app.
  pose proof (Hsound query_multi) as H.
  destruct (z3_check query_multi) as [m | |]; try reflexivity.
  apply models_satisfiable in H. destruct (query_multi_unsat H).
Qed.

Lemma C4_two_period_holds_witness :
  sound reference_check /\
  written (verify_two_period_portfolio reference_check (fun _ => "[]"%string))
          empty_world
  = Some [holds_msg_multi].
Proof.
  split; [exact reference_check_sound |].
  apply (C4_two_period_holds (fun _ => "[]"%string) empty_world
                             reference_check_sound).
Defined.

(** ** Scenario 2: single period with drift *)

(** C1, as stated, fails.  The assignment w1 = 1, r1 = 1, epsilon = 1/1000
    (all else 0) meets every constraint of the drift scenario and gives a
    return above 1, so the bound [-1,1] does not hold; with the reference
    engine, which is sound, [verify_portfolio_with_fp_error] returns the
    violation message with that assignment. *)
Lemma C1_drift_breaks_bound :
  ~ (forall rho, satisfies rho constraints_fp ->
                 (-1 <= evalR rho return_fp <= 1)%R) /\
  models drift_corner_up constraints_fp = true /\
  (evalQ (model_get drift_corner_up) return_fp == 1001 # 1000)%Q /\
  sound reference_check /\
  returned (verify_portfolio_with_fp_error reference_check) empty_world
  = Some (PyTuple violation_msg_fp drift_corner_up).
Proof.
  split; [| repeat split; exact reference_check_sound].
  intros H.
  assert (Hc : models drift_corner_up constraints_fp = true) by reflexivity.
  apply models_satisfies, H in Hc. destruct Hc as [_ Hu].
  unfold valuation in Hu. rewrite evalR_Q2R in Hu.
  assert (Hq : Qlt_bool 1 (evalQ (model_get drift_corner_up) return_fp)
               = true) by reflexivity.
  apply Qlt_bool_Rlt in Hq. rewrite (Q2R_int 1) in Hq. lra.
Qed.

(** C1, amended.  The query of the drift scenario is satisfiable, so with a
    sound engine that answers sat or unsat [verify_portfolio_with_fp_error]
    returns the violation message together with a model of the constraints
    whose return lies outside [-1,1]; it does not return the property-holds
    message. *)
Theorem C1_drift_violation_reported
        (z3_check : list bexpr -> answer) (w : world)
        (Hsound : sound z3_check)
        (Hdecided : z3_check query_fp <> Unknown) :
  satisfiable query_fp /\
  returned (verify_portfolio_with_fp_error z3_check) w
  <> Some (PyStr holds_msg_fp) /\
  exists m, returned (verify_portfolio_with_fp_error z3_check) w
            = Some (PyTuple violation_msg_fp m) /\
            models m constraints_fp = true /\
            outside m return_fp 1.
Proof.
  assert (Hsat : satisfiable query_fp)
    by exact (models_satisfiable _ _ query_fp_sat).
  split; [exact Hsat |].
  unfold returned. rewrite verify_portfolio_with_fp_error_run.
  pose proof (Hsound query_fp) as H.
  destruct (z3_check query_fp) as [m | |].
  - split; [discriminate |]. exists m. split; [reflexivity |].
    now apply models_query.
  - contradiction.
  - contradiction.
Qed.

Lemma C1_drift_violation_reported_witness :
  sound reference_check /\
  reference_check query_fp <> Unknown /\
  exists m, returned (verify_portfolio_with_fp_error reference_check)
                     empty_world
            = Some (PyTuple violation_msg_fp m) /\
            models m constraints_fp = true /\
            outside m return_fp 1.
Proof.
  split; [exact reference_check_sound |].
  split; [vm_compute; discriminate |].
  apply (C1_drift_violation_reported empty_world reference_check_sound).
  vm_compute; discriminate.
Defined.

(** C10.  In the drift scenario every assignment that meets the constraints
    gives a return in [-1.001, 1.001]; so a model of the query, which is
    what a checker can report with a sound engine, has its return outside
    [-1,1] by at most 0.001; and both extremes are reached: 1.001 at
    w1 = 1, r1 = 1, epsilon = 0.001 and -1.001 at w1 = 1, r1 = -1,
    epsilon = -0.001. *)
Theorem C10_drift_excess_bounded :
  (forall rho, satisfies rho constraints_fp ->
               (-1 - 1 / 1000 <= evalR rho return_fp <= 1 + 1 / 1000)%R) /\
  (forall m, models m query_fp = true ->
             outside m return_fp 1 /\
             (- (1001 # 1000) <= evalQ (model_get m) return_fp)%Q /\
             (evalQ (model_get m) return_fp <= 1001 # 1000)%Q) /\
  (forall z3_check w m,
      sound z3_check ->
      returned (verify_portfolio_with_fp_error z3_check) w
      = Some (PyTuple violation_msg_fp m) ->
      (- (1001 # 1000) <= evalQ (model_get m) return_fp)%Q /\
      (evalQ (model_get m) return_fp <= 1001 # 1000)%Q) /\
  (models drift_corner_up constraints_fp = true /\
   (evalQ (model_get drift_corner_up) return_fp == 1001 # 1000)%Q) /\
  (models drift_corner_down constraints_fp = true /\
   (evalQ (model_get drift_corner_down) return_fp == - (1001 # 1000))%Q).
Proof.
  assert (Hm : forall m, models m query_fp = true ->
             outside m return_fp 1 /\
             (- (1001 # 1000) <= evalQ (model_get m) return_fp)%Q /\
             (evalQ (model_get m) return_fp <= 1001 # 1000)%Q).
  { intros m H. apply models_query in H. destruct H as [Hc Ho].
    split; [exact Ho |].
    apply models_satisfies, fp_bound in Hc.
    unfold valuation in Hc. rewrite evalR_Q2R in Hc.
    split; apply Rle_Qle; [rewrite Q2R_opp |];
      rewrite Q2R_thousandth; lra. }
  split; [exact fp_bound |].
  split; [exact Hm |].
  split; [| repeat split].
  intros z3_check w m Hs. unfold returned.
  rewrite verify_portfolio_with_fp_error_run.
  pose proof (Hs query_fp) as H.
  destruct (z3_check query_fp) as [m' | |]; try discriminate.
  intros E. injection E as ->. apply Hm in H. tauto.
Qed.

Lemma C10_drift_excess_bounded_witness :
  models drift_corner_up query_fp = true /\
  outside drift_corner_up return_fp 1 /\
  (evalQ (model_get drift_corner_up) return_fp <= 1001 # 1000)%Q.
Proof.
  split; [reflexivity |].
  destruct C10_drift_excess_bounded as (_ & H & _).
  destruct (H drift_corner_up eq_refl) as (Ho & _ & Hu).
  split; [exact Ho | exact Hu].
Defined.

(** * The checkers as a family *)

(** ** The unknown answer *)

(** C2, as stated, fails.  With an engine whose every check ends on its
    resource limit, the two returning checkers return their property-holds
    message and the two-period checker prints its property-holds line. *)
Lemma C2_unknown_reported_as_holds :
  timeout_check query_single = Unknown /\
  returned (verify_portfolio_return timeout_check) empty_world
  = Some (PyStr holds_msg_single) /\
  timeout_check query_fp = Unknown /\
  returned (verify_portfolio_with_fp_error timeout_check) empty_world
  = Some (PyStr holds_msg_fp) /\
  timeout_check query_multi = Unknown /\
  written (verify_two_period_portfolio timeout_check (fun _ => "[]"%string))
          empty_world
  = Some [holds_msg_multi].
Proof.
  repeat split.
Qed.

(** C2, amended.  When the check of a query answers unknown, the checker
    takes the branch it takes for unsat: [verify_portfolio_return] and
    [verify_portfolio_with_fp_error] return their property-holds message as
    a bare string, with no model, and [verify_two_period_portfolio] prints
    its property-holds line and returns [None].  No checker has a third
    outcome. *)
Theorem C2_unknown_takes_else_branch
        (z3_check : list bexpr -> answer) (repr_model : model -> string)
        (w : world) :
  (z3_check query_single = Unknown ->
   returned (verify_portfolio_return z3_check) w
   = Some (PyStr holds_msg_single)) /\
  (z3_check query_fp = Unknown ->
   returned (verify_portfolio_with_fp_error z3_check) w
   = Some (PyStr holds_msg_fp)) /\
  (z3_check query_multi = Unknown ->
   returned (verify_two_period_portfolio z3_check repr_model) w
   = Some PyNone /\
   written (verify_two_period_portfolio z3_check repr_model) w
   = Some [holds_msg_multi]) /\
  (forall v, returned (verify_portfolio_return z3_check) w = Some v ->
             v = PyStr holds_msg_single \/
             exists m, v = PyTuple violation_msg_single m) /\
  (forall v, returned (verify_portfolio_with_fp_error z3_check) w = Some v ->
             v = PyStr holds_msg_fp \/
             exists m, v = PyTuple violation_msg_fp m) /\
  (forall l, written (verify_two_period_portfolio z3_check repr_model) w
             = Some l ->
             l = [holds_msg_multi] \/
             exists m, l = [violation_msg_multi; repr_model m]).
Proof.
  unfold returned, written.
  rewrite verify_portfolio_return_run, verify_portfolio_with_fp_error_run,
    verify_two_period_portfolio_run.
  cbn [stdout]. rewrite skipn_length_app.
  split; [| split; [| split; [| split; [| split]]]].
  - now intros ->.
  - now intros ->.
  - now intros ->.
  - intros v E. injection E as <-.
    destruct (z3_check query_single) as [m | |]; simpl; eauto.
  - intros v E. injection E as <-.
    destruct (z3_check query_fp) as [m | |]; simpl; eauto.
  - intros l E. injection E as <-.
    destruct (z3_check query_multi) as [m | |]; simpl; eauto.
Qed.

Lemma C2_unknown_takes_else_branch_witness :
  timeout_check query_single = Unknown /\
  returned (verify_portfolio_return timeout_check) empty_world
  = Some (PyStr holds_msg_single) /\
  timeout_check query_fp = Unknown /\
  returned (verify_portfolio_with_fp_error timeout_check) empty_world
  = Some (PyStr holds_msg_fp).
Proof.
  destruct (C2_unknown_takes_else_branch timeout_check
              (fun _ => "[]"%string) empty_world) as (H1 & H2 & _).
  split; [reflexivity |].
  split; [apply H1; reflexivity |].
  split; [reflexivity |].
  apply H2; reflexivity.
Defined.

(** ** Counterexamples *)

(** C5.  With a sound engine, a model a checker hands back satisfies every
    declared constraint of its scenario and puts the return expression
    strictly outside [-B, B]; and a model comes only with the violation
    message: otherwise the returning checkers give the bare property-holds
    string and the two-period checker prints the property-holds line
    alone. *)
Theorem C5_counterexample_valid
        (z3_check : list bexpr -> answer) (repr_model : model -> string)
        (w : world) (Hsound : sound z3_check) :
  (forall v, returned (verify_portfolio_return z3_check) w = Some v ->
     (exists m, v = PyTuple violation_msg_single m /\
                z3_check query_single = Sat m /\
                models m constraints_single = true /\
                outside m return_single 1) \/
     (v = PyStr holds_msg_single /\
      verdict_of (z3_check query_single) <> sat)) /\
  (forall v, returned (verify_portfolio_with_fp_error z3_check) w = Some v ->
     (exists m, v = PyTuple violation_msg_fp m /\
                z3_check query_fp = Sat m /\
                models m constraints_fp = true /\
                outside m return_fp 1) \/
     (v = PyStr holds_msg_fp /\
      verdict_of (z3_check query_fp) <> sat)) /\
  (forall l, written (verify_two_period_portfolio z3_check repr_model) w
             = Some l ->
     (exists m, l = [violation_msg_multi; repr_model m] /\
                z3_check query_multi = Sat m /\
                models m constraints_multi = true /\
                outside m return_multi 2) \/
     (l = [holds_msg_multi] /\
      verdict_of (z3_check query_multi) <> sat)).
Proof.
  unfold returned, written.
  rewrite verify_portfolio_return_run, verify_portfolio_with_fp_error_run,
    verify_two_period_portfolio_run.
  cbn [stdout]. rewrite skipn_length_app.
  split; [| split]; intros v E; injection E as <-.
  - pose proof (Hsound query_single) as H.
    destruct (z3_check query_single) as [m | |]; simpl;
      [left | right; split; [reflexivity | discriminate] ..].
    exists m. apply models_query in H. tauto.
  - pose proof (Hsound query_fp) as H.
    destruct (z3_check query_fp) as [m | |]; simpl;
      [left | right; split; [reflexivity | discriminate] ..].
    exists m. apply models_query in H. tauto.
  - pose proof (Hsound query_multi) as H.
    destruct (z3_check query_multi) as [m | |]; simpl;
      [left | right; split; [reflexivity | discriminate] ..].
    exists m. apply models_query in H. tauto.
Qed.

Lemma C5_counterexample_valid_witness :
  sound reference_check /\
  returned (verify_portfolio_with_fp_error reference_check) empty_world
  = Some (PyTuple violation_msg_fp drift_corner_up) /\
  models drift_corner_up constraints_fp = true /\
  outside drift_corner_up return_fp 1.
Proof.
  split; [exact reference_check_sound |].
  split; [reflexivity |].
  destruct (C5_counterexample_valid (fun _ => "[]"%string) empty_world
              reference_check_sound) as (_ & H & _).
  destruct (H _ eq_refl) as [(m & E & _ & Hc & Ho) | [E _]];
    [| discriminate].
  injection E as <-. split; [exact Hc | exact Ho].
Defined.

(** ** The runner *)

Lemma run_all_tests_run (z3_check : list bexpr -> answer)
      (repr_model : model -> string) (w : world) :
  run_all_tests z3_check repr_model w
  = Some (PyNone,
          mkWorld
            (solvers w ++ [session_of z3_check query_single;
                           session_of z3_check query_fp;
                           session_of z3_check query_multi])
            (stdout w ++
               [header_single;
                py_str repr_model (result_single (z3_check query_single));
                header_fp;
                py_str repr_model (result_fp (z3_check query_fp));
                header_multi] ++
               lines_multi repr_model (z3_check query_multi) ++
               ["None"%string])).
Proof.
  unfold run_all_tests, bind.
  unfold print at 1. cbn [solvers stdout].
  rewrite verify_portfolio_return_run. cbn [solvers stdout].
  unfold print at 1. unfold print at 1. cbn [solvers stdout].
  rewrite verify_portfolio_with_fp_error_run. cbn [solvers stdout].
  unfold print at 1. unfold print at 1. cbn [solvers stdout].
  rewrite verify_two_period_portfolio_run. cbn [solvers stdout].
  unfold print, ret. cbn [solvers stdout py_str].
  repeat rewrite <- app_assoc. reflexivity.
Qed.

(** ** The idiom *)

(** C6.  Each checker hands the engine one list: its declared constraints
    followed by the negated property [return < -B or return > B] (the new
    solver object holds exactly that list, and the outcome depends on the
    engine through its answer on that list alone).  The outcome is the
    engine's answer on that list, for every engine: the violation, with the
    model [m], exactly when the answer is sat with [m], and the
    property-holds outcome exactly when the answer is not sat; the solver
    object the call leaves behind holds the list and the model of that
    answer.  Hence, with a sound engine that reaches a decision, the
    checker reports a violation exactly when that list is satisfiable and
    the property as holding exactly when it is not. *)
Theorem C6_negate_and_search
        (z3_check : list bexpr -> answer) (repr_model : model -> string)
        (w : world)
        (Hsound : sound z3_check) (Hdecides : decides z3_check) :
  (forall engine : list bexpr -> answer,
      (forall m, returned (verify_portfolio_return engine) w
                 = Some (PyTuple violation_msg_single m)
                 <-> engine query_single = Sat m) /\
      (returned (verify_portfolio_return engine) w
       = Some (PyStr holds_msg_single)
       <-> verdict_of (engine query_single) <> sat) /\
      (forall m, returned (verify_portfolio_with_fp_error engine) w
                 = Some (PyTuple violation_msg_fp m)
                 <-> engine query_fp = Sat m) /\
      (returned (verify_portfolio_with_fp_error engine) w
       = Some (PyStr holds_msg_fp)
       <-> verdict_of (engine query_fp) <> sat) /\
      (forall m, engine query_multi = Sat m ->
                 written (verify_two_period_portfolio engine repr_model) w
                 = Some [violation_msg_multi; repr_model m]) /\
      (forall l, written (verify_two_period_portfolio engine repr_model) w
                 = Some (violation_msg_multi :: l) ->
                 exists m, engine query_multi = Sat m /\
                           l = [repr_model m]) /\
      (written (verify_two_period_portfolio engine repr_model) w
       = Some [holds_msg_multi]
       <-> verdict_of (engine query_multi) <> sat) /\
      (exists v, verify_portfolio_return engine w
                 = Some (v, mkWorld
                              (solvers w ++
                                 [mkSolver query_single
                                    (model_of (engine query_single))])
                              (stdout w))) /\
      (exists v, verify_portfolio_with_fp_error engine w
                 = Some (v, mkWorld
                              (solvers w ++
                                 [mkSolver query_fp
                                    (model_of (engine query_fp))])
                              (stdout w))) /\
      (exists v l, verify_two_period_portfolio engine repr_model w
                   = Some (v, mkWorld
                                (solvers w ++
                                   [mkSolver query_multi
                                      (model_of (engine query_multi))])
                                (stdout w ++ l)))) /\
  query_single
  = constraints_single
      ++ [Or (return_single < Num (-1))%z3 (return_single > Num 1)%z3] /\
  query_fp
  = constraints_fp
      ++ [Or (return_fp < Num (-1))%z3 (return_fp > Num 1)%z3] /\
  query_multi
  = constraints_multi
      ++ [Or (return_multi < Num (-2))%z3 (return_multi > Num 2)%z3] /\
  (forall z3_check',
      z3_check' query_single = z3_check query_single ->
      verify_portfolio_return z3_check' w
      = verify_portfolio_return z3_check w) /\
  (forall z3_check',
      z3_check' query_fp = z3_check query_fp ->
      verify_portfolio_with_fp_error z3_check' w
      = verify_portfolio_with_fp_error z3_check w) /\
  (forall z3_check',
      z3_check' query_multi = z3_check query_multi ->
      verify_two_period_portfolio z3_check' repr_model w
      = verify_two_period_portfolio z3_check repr_model w) /\
  (exists v w', verify_portfolio_return z3_check w = Some (v, w') /\
                map assertions (solvers w')
                = map assertions (solvers w) ++ [query_single]) /\
  (exists v w', verify_portfolio_with_fp_error z3_check w = Some (v, w') /\
                map assertions (solvers w')
                = map assertions (solvers w) ++ [query_fp]) /\
  (exists v w', verify_two_period_portfolio z3_check repr_model w
                = Some (v, w') /\
                map assertions (solvers w')
                = map assertions (solvers w) ++ [query_multi]) /\
  ((exists m, returned (verify_portfolio_return z3_check) w
              = Some (PyTuple violation_msg_single m))
   <-> satisfiable query_single) /\
  (returned (verify_portfolio_return z3_check) w
   = Some (PyStr holds_msg_single)
   <-> ~ satisfiable query_single) /\
  ((exists m, returned (verify_portfolio_with_fp_error z3_check) w
              = Some (PyTuple violation_msg_fp m))
   <-> satisfiable query_fp) /\
  (returned (verify_portfolio_with_fp_error z3_check) w
   = Some (PyStr holds_msg_fp)
   <-> ~ satisfiable query_fp) /\
  ((exists m, written (verify_two_period_portfolio z3_check repr_model) w
              = Some [violation_msg_multi; repr_model m])
   <-> satisfiable query_multi) /\
  (written (verify_two_period_portfolio z3_check repr_model) w
   = Some [holds_msg_multi]
   <-> ~ satisfiable query_multi).
Proof.
  split.
  { intros engine. unfold returned, written.
    rewrite verify_portfolio_return_run, verify_portfolio_with_fp_error_run,
      verify_two_period_portfolio_run.
    unfold session_of. cbn [stdout]. rewrite skipn_length_app.
    split; [| split; [| split; [| split; [| split; [| split;
      [| split; [| split; [| split]]]]]]]].
    - intros m. destruct (engine query_single) as [m' | |]; simpl;
        split; intros E; try discriminate; congruence.
    - destruct (engine query_single) as [m' | |]; simpl;
        split; intros E; try discriminate; try reflexivity;
        now destruct E.
    - intros m. destruct (engine query_fp) as [m' | |]; simpl;
        split; intros E; try discriminate; congruence.
    - destruct (engine query_fp) as [m' | |]; simpl;
        split; intros E; try discriminate; try reflexivity;
        now destruct E.
    - intros m E. now rewrite E.
    - intros l E. destruct (engine query_multi) as [m' | |]; simpl in E;
        try discriminate.
      exists m'. split; [reflexivity | congruence].
    - destruct (engine query_multi) as [m' | |]; simpl;
        split; intros E; try discriminate; try reflexivity;
        now destruct E.
    - eexists; reflexivity.
    - eexists; reflexivity.
    - eexists; eexists; reflexivity. }
  destruct Hdecides as (D1 & D2 & D3).
  destruct (decided_sat_iff query_single Hsound D1) as [S1 U1].
  destruct (decided_sat_iff query_fp Hsound D2) as [S2 U2].
  destruct (decided_sat_iff query_multi Hsound D3) as [S3 U3].
  do 3 (split; [reflexivity |]).
  split; [| split; [| split]].
  1-3: intros z3' E;
    rewrite ?verify_portfolio_return_run,
      ?verify_portfolio_with_fp_error_run,
      ?verify_two_period_portfolio_run;
    unfold session_of; now rewrite E.
  split; [| split; [| split]].
  1-3: rewrite ?verify_portfolio_return_run,
      ?verify_portfolio_with_fp_error_run,
      ?verify_two_period_portfolio_run;
    eexists; eexists; split; [reflexivity |];
    cbn [solvers]; now rewrite map_app.
  unfold returned, written.
  rewrite verify_portfolio_return_run, verify_portfolio_with_fp_error_run,
    verify_two_period_portfolio_run.
  cbn [stdout]. rewrite skipn_length_app.
  rewrite <- U1, <- S1, <- U2, <- S2, <- U3, <- S3.
  split; [| split; [| split; [| split; [| split]]]].
  - destruct (z3_check query_single) as [m | |]; simpl; split;
      intros [m' E]; try discriminate; eauto.
  - destruct (z3_check query_single) as [m | |]; simpl; split;
      intros E; try discriminate; try reflexivity; contradiction.
  - destruct (z3_check query_fp) as [m | |]; simpl; split;
      intros [m' E]; try discriminate; eauto.
  - destruct (z3_check query_fp) as [m | |]; simpl; split;
      intros E; try discriminate; try reflexivity; contradiction.
  - destruct (z3_check query_multi) as [m | |]; simpl; split;
      intros [m' E]; try discriminate; eauto.
  - destruct (z3_check query_multi) as [m | |]; simpl; split;
      intros E; try discriminate; try reflexivity; contradiction.
Qed.

Lemma C6_negate_and_search_witness :
  sound reference_check /\ decides reference_check /\
  ((exists m, returned (verify_portfolio_with_fp_error reference_check)
                       empty_world
              = Some (PyTuple violation_msg_fp m))
   <-> satisfiable query_fp) /\
  (returned (verify_portfolio_return reference_check) empty_world
   = Some (PyStr holds_msg_single)
   <-> ~ satisfiable query_single).
Proof.
  split; [exact reference_check_sound |].
  split; [exact reference_check_decides |].
  destruct (C6_negate_and_search (fun _ => "[]"%string) empty_world
              reference_check_sound reference_check_decides)
    as (_ & _ & _ & _ & _ & _ & _ & _ & _ & _ & _ & H1 & H2 & _).
  split; [exact H2 | exact H1].
Defined.

(** ** Determinism *)

Lemma twice_run {A} (c : M A) (f : world -> A) (g : world -> world)
      (w : world) :
  (forall w0, c w0 = Some (f w0, g w0)) ->
  twice c w = Some ((f w, f (g w)), g (g w)).
Proof.
  intros H. unfold twice, bind, ret. now rewrite !H.
Qed.

(** C7.  No checker takes an argument, and what a checker reports does not
    depend on the process state it starts from: from any two states it
    returns the same value and writes the same lines.  A call creates one
    new solver object and leaves every object that existed untouched, so a
    second call, made in the state the first one left, reports the same
    again.  (The engine is a function of the assertions it is given.) *)
Theorem C7_checkers_deterministic
        (z3_check : list bexpr -> answer) (repr_model : model -> string)
        (w1 w2 : world) :
  returned (verify_portfolio_return z3_check) w1
  = returned (verify_portfolio_return z3_check) w2 /\
  returned (verify_portfolio_with_fp_error z3_check) w1
  = returned (verify_portfolio_with_fp_error z3_check) w2 /\
  returned (verify_two_period_portfolio z3_check repr_model) w1
  = returned (verify_two_period_portfolio z3_check repr_model) w2 /\
  written (verify_two_period_portfolio z3_check repr_model) w1
  = written (verify_two_period_portfolio z3_check repr_model) w2 /\
  written (run_all_tests z3_check repr_model) w1
  = written (run_all_tests z3_check repr_model) w2 /\
  (exists v, returned (twice (verify_portfolio_return z3_check)) w1
             = Some (v, v)) /\
  (exists v, returned (twice (verify_portfolio_with_fp_error z3_check)) w1
             = Some (v, v)) /\
  (exists l, written (verify_two_period_portfolio z3_check repr_model) w1
             = Some l /\
             written (twice (verify_two_period_portfolio z3_check
                                                         repr_model)) w1
             = Some (l ++ l)) /\
  (exists v s, verify_portfolio_return z3_check w1
               = Some (v, mkWorld (solvers w1 ++ [s]) (stdout w1))) /\
  (exists v s, verify_portfolio_with_fp_error z3_check w1
               = Some (v, mkWorld (solvers w1 ++ [s]) (stdout w1))) /\
  (exists v s l, verify_two_period_portfolio z3_check repr_model w1
                 = Some (v, mkWorld (solvers w1 ++ [s]) (stdout w1 ++ l))).
Proof.
  unfold returned, written.
  rewrite !(twice_run _ _ _ _ (verify_portfolio_return_run z3_check)).
  rewrite !(twice_run _ _ _ _ (verify_portfolio_with_fp_error_run z3_check)).
  rewrite !(twice_run _ _ _ _
              (verify_two_period_portfolio_run z3_check repr_model)).
  rewrite !verify_portfolio_return_run, !verify_portfolio_with_fp_error_run,
    !verify_two_period_portfolio_run, !run_all_tests_run.
  cbn [stdout solvers]. rewrite <- !app_assoc, !skipn_length_app.
  repeat (split; [reflexivity |]).
  repeat (split; [eexists; reflexivity |]).
  split; [eexists; split; reflexivity |].
  repeat (split; [eexists; eexists; reflexivity |]).
  eexists; eexists; eexists; reflexivity.
Qed.

(** ** The entry point *)

(** C8.  [run_all_tests] takes no argument and runs the single-period
    checker, then the drift checker, then the two-period checker (the
    solver objects it creates hold the three queries in that order).  For
    each scenario it writes the header and then the verdict of that
    scenario's checker: the printed return value for the first two (the
    model, if any, inside the same tuple), and for the third the line or
    lines the checker prints itself, followed by the text of its return
    value (see C9).  What is written does not depend on the state the
    process starts from. *)
Theorem C8_run_all_tests_output
        (z3_check : list bexpr -> answer) (repr_model : model -> string)
        (w : world) :
  (exists v1 v2 l3,
      returned (verify_portfolio_return z3_check) w = Some v1 /\
      returned (verify_portfolio_with_fp_error z3_check) w = Some v2 /\
      written (verify_two_period_portfolio z3_check repr_model) w
      = Some l3 /\
      (v1 = PyStr holds_msg_single \/
       exists m, v1 = PyTuple violation_msg_single m) /\
      (v2 = PyStr holds_msg_fp \/
       exists m, v2 = PyTuple violation_msg_fp m) /\
      (l3 = [holds_msg_multi] \/
       exists m, l3 = [violation_msg_multi; repr_model m]) /\
      written (run_all_tests z3_check repr_model) w
      = Some ([header_single; py_str repr_model v1;
               header_fp; py_str repr_model v2;
               header_multi] ++ l3 ++ ["None"%string])) /\
  (exists w', run_all_tests z3_check repr_model w = Some (PyNone, w') /\
              map assertions (solvers w')
              = map assertions (solvers w)
                  ++ [query_single; query_fp; query_multi]) /\
  (forall w0, written (run_all_tests z3_check repr_model) w0
              = written (run_all_tests z3_check repr_model) w).
Proof.
  unfold returned, written.
  split; [| split].
  - rewrite verify_portfolio_return_run, verify_portfolio_with_fp_error_run,
      verify_two_period_portfolio_run, run_all_tests_run.
    cbn [stdout]. rewrite !skipn_length_app.
    do 3 eexists. do 3 (split; [reflexivity |]).
    split; [| split; [| split; [| reflexivity]]].
    + destruct (z3_check query_single) as [m | |]; simpl; eauto.
    + destruct (z3_check query_fp) as [m | |]; simpl; eauto.
    + destruct (z3_check query_multi) as [m | |]; simpl; eauto.
  - rewrite run_all_tests_run. eexists. split; [reflexivity |].
    cbn [solvers]. now rewrite map_app.
  - intros w0. rewrite !run_all_tests_run. cbn [stdout].
    now rewrite !skipn_length_app.
Qed.


(** * Further properties of the scripts *)

(** ** Exceptions *)

(** After a check that did not answer sat, [solver.model()] raises. *)
Lemma get_model_without_sat (z3_check : list bexpr -> answer) (h : nat)
      (w : world) (s : Solver) :
  nth_error (solvers w) h = Some s ->
  verdict_of (z3_check (assertions s)) <> sat ->
  (check z3_check h ;;; get_model h) w = None.
Proof.
  intros Hs Hv. unfold bind, check, get_model. rewrite Hs. cbn [solvers].
  assert (Hn : nth_error (list_set (solvers w) h
                 (mkSolver (assertions s)
                           (model_of (z3_check (assertions s))))) h
               = Some (mkSolver (assertions s)
                                (model_of (z3_check (assertions s))))).
  { clear Hv. revert h Hs. induction (solvers w) as [| x l IH];
      intros [| h] Hs; simpl in *; try discriminate; auto. }
  rewrite Hn. cbn [last_model].
  destruct (z3_check (assertions s)); [now destruct Hv | reflexivity ..].
Qed.

(** X1.  [solver.model()] raises unless the last check answered sat, and
    the checkers call it in the sat branch only: whatever the engine
    answers, sound or not, and whatever the process state, the three
    checkers, the runner and the four scripts end without an exception. *)
Theorem checkers_never_raise
        (z3_check : list bexpr -> answer) (repr_model : model -> string)
        (w : world) :
  (forall h s,
      nth_error (solvers w) h = Some s ->
      verdict_of (z3_check (assertions s)) <> sat ->
      (check z3_check h ;;; get_model h) w = None) /\
  verify_portfolio_return z3_check w <> None /\
  verify_portfolio_with_fp_error z3_check w <> None /\
  verify_two_period_portfolio z3_check repr_model w <> None /\
  run_all_tests z3_check repr_model w <> None /\
  main_verifloat z3_check repr_model w <> None /\
  main_verifloat_fp z3_check repr_model w <> None /\
  main_verifloat_multi z3_check repr_model w <> None /\
  main_test_cases z3_check repr_model w <> None.
Proof.
  split; [intros h s; apply get_model_without_sat |].
  unfold main_verifloat, main_verifloat_fp, main_verifloat_multi,
    main_test_cases, bind.
  rewrite verify_portfolio_return_run, verify_portfolio_with_fp_error_run,
    verify_two_period_portfolio_run, run_all_tests_run.
  repeat split; discriminate.
Qed.

Lemma checkers_never_raise_witness :
  (check timeout_check 0 ;;; get_model 0)
    (mkWorld [mkSolver query_fp None] []) = None.
Proof.
  destruct (checkers_never_raise timeout_check (fun _ => "[]"%string)
              (mkWorld [mkSolver query_fp None] [])) as [H _].
  apply (H 0%nat (mkSolver query_fp None)); [reflexivity | discriminate].
Defined.

(** X2.  The checkers do not look at the model the engine returns: if the
    engine answers sat with a model [m], they report a violation with that
    very [m], whether or not it satisfies anything.  An engine that answers
    sat on every query is not sound (the single-period query has no
    model), yet the single-period checker reports its model all the same. *)
Theorem model_is_not_rechecked
        (repr_model : model -> string) (m : model) (w : world) :
  ~ sound (fun _ => Sat m) /\
  returned (verify_portfolio_return (fun _ => Sat m)) w
  = Some (PyTuple violation_msg_single m) /\
  returned (verify_portfolio_with_fp_error (fun _ => Sat m)) w
  = Some (PyTuple violation_msg_fp m) /\
  written (verify_two_period_portfolio (fun _ => Sat m) repr_model) w
  = Some [violation_msg_multi; repr_model m].
Proof.
  split.
  - intros Hs. specialize (Hs query_single). cbv beta in Hs.
    exact (query_single_unsat (models_satisfiable m query_single Hs)).
  - unfold returned, written.
    rewrite verify_portfolio_return_run, verify_portfolio_with_fp_error_run,
      verify_two_period_portfolio_run.
    cbn [stdout]. rewrite skipn_length_app. repeat split.
Qed.

(** ** The scripts and the runner *)

(** X3.  What [run_all_tests] writes is made of what the three scripts
    write when run on their own: a header before each, and the line [None]
    at the end, which [verifloat_multi.py] alone never writes (its block
    calls the checker without printing the value).  The first two scripts
    write one entry each, the third one or two. *)
Theorem runner_output_from_scripts
        (z3_check : list bexpr -> answer) (repr_model : model -> string)
        (w : world) :
  exists l1 l2 l3,
    written (main_verifloat z3_check repr_model) w = Some l1 /\
    written (main_verifloat_fp z3_check repr_model) w = Some l2 /\
    written (main_verifloat_multi z3_check repr_model) w = Some l3 /\
    written (verify_two_period_portfolio z3_check repr_model) w = Some l3 /\
    List.length l1 = 1%nat /\ List.length l2 = 1%nat /\
    (List.length l3 = 1%nat \/ List.length l3 = 2%nat) /\
    written (main_test_cases z3_check repr_model) w
    = Some ([header_single] ++ l1 ++ [header_fp] ++ l2
              ++ [header_multi] ++ l3 ++ ["None"%string]).
Proof.
  unfold written, main_verifloat, main_verifloat_fp, main_verifloat_multi,
    main_test_cases, bind, print, ret.
  rewrite verify_portfolio_return_run, verify_portfolio_with_fp_error_run,
    verify_two_period_portfolio_run, run_all_tests_run.
  cbn [stdout solvers]. rewrite !skipn_length_app.
  do 3 eexists. do 4 (split; [reflexivity |]).
  do 2 (split; [reflexivity |]).
  split; [| reflexivity].
  destruct (z3_check query_multi); simpl; auto.
Qed.

(** X4.  With a sound engine that reaches a decision on the drift query,
    the whole output of [run_all_tests] is fixed up to the model: the
    single-period and two-period scenarios report that the property holds,
    the drift scenario reports a violation, printed as a tuple with a model
    of its query, and the last line is [None]. *)
Theorem runner_output_sound_engine
        (z3_check : list bexpr -> answer) (repr_model : model -> string)
        (w : world)
        (Hsound : sound z3_check)
        (Hdecided : z3_check query_fp <> Unknown) :
  exists m,
    models m query_fp = true /\
    written (run_all_tests z3_check repr_model) w
    = Some [header_single; holds_msg_single;
            header_fp;
            ("('" ++ violation_msg_fp ++ "', " ++ repr_model m ++ ")")%string;
            header_multi; holds_msg_multi;
            "None"%string].
Proof.
  unfold written. rewrite run_all_tests_run. cbn [stdout].
  rewrite skipn_length_app.
  pose proof (Hsound query_single) as H1.
  pose proof (Hsound query_fp) as H2.
  pose proof (Hsound query_multi) as H3.
  assert (E1 : result_single (z3_check query_single)
               = PyStr holds_msg_single).
  { destruct (z3_check query_single); try reflexivity.
    destruct (query_single_unsat (models_satisfiable _ _ H1)). }
  assert (E3 : lines_multi repr_model (z3_check query_multi)
               = [holds_msg_multi]).
  { destruct (z3_check query_multi); try reflexivity.
    destruct (query_multi_unsat (models_satisfiable _ _ H3)). }
  rewrite E1, E3.
  destruct (z3_check query_fp) as [m | |].
  - exists m. split; [exact H2 | reflexivity].
  - destruct (H2 (models_satisfiable _ _ query_fp_sat)).
  - contradiction.
Qed.

Lemma runner_output_sound_engine_witness :
  sound reference_check /\ reference_check query_fp <> Unknown /\
  exists m,
    models m query_fp = true /\
    written (run_all_tests reference_check (fun _ => "[]"%string))
            empty_world
    = Some [header_single; holds_msg_single;
            header_fp;
            ("('" ++ violation_msg_fp ++ "', " ++ "[]" ++ ")")%string;
            header_multi; holds_msg_multi;
            "None"%string].
Proof.
  split; [exact reference_check_sound |].
  split; [vm_compute; discriminate |].
  apply (runner_output_sound_engine (fun _ => "[]"%string) empty_world
                                    reference_check_sound).
  vm_compute; discriminate.
Defined.

(** ** How tight the hard-coded bounds are *)

Lemma satisfies_query_Q (rho : string -> R) (cs : list bexpr) (e : expr)
      (B : Q) :
  satisfies rho (cs ++ [negated_bound e B]) <->
  satisfies rho cs /\
  (evalR rho e < - Q2R B \/ Q2R B < evalR rho e)%R.
Proof.
  unfold satisfies. rewrite Forall_app, Forall_cons_iff.
  unfold negated_bound. cbn [holds evalR]. rewrite Q2R_opp.
  intuition auto using Forall_nil.
Qed.

(** If the constraints keep the expression within [-T, T] and some model of
    them reaches [T], then the query with bound [B] has a solution exactly
    when [B] is below [T]. *)
Lemma bound_threshold (cs : list bexpr) (e : expr) (T : Q) (c : model) :
  (forall rho, satisfies rho cs ->
               (- Q2R T <= evalR rho e <= Q2R T)%R) ->
  models c cs = true ->
  (evalQ (model_get c) e == T)%Q ->
  forall B : Q, satisfiable (cs ++ [negated_bound e B]) <-> (B < T)%Q.
Proof.
  intros Hb Hc He B. split.
  - intros [rho H]. apply satisfies_query_Q in H. destruct H as [Hcs Hn].
    apply Hb in Hcs. apply Rlt_Qlt. lra.
  - intros H. apply models_satisfiable with (m := c).
    apply models_query. split; [exact Hc |].
    right. now rewrite He.
Qed.

(** X5.  In the single-period script the bound 1 is the least one the
    constraints support: with any bound [B] in place of 1, the constraints
    and the negated property have a solution exactly when [B < 1]. *)
Theorem single_period_bound_tight (B : Q) :
  satisfiable (constraints_single ++ [negated_bound return_single B])
  <-> (B < 1)%Q.
Proof.
  apply bound_threshold with (c := single_corner);
    [| reflexivity | reflexivity].
  intros rho H. apply single_bound in H. rewrite (Q2R_int 1). lra.
Qed.

(** X6.  In the drift script the constraints support the bound 1.001 and
    no smaller one: with a bound [B] in place of 1, the constraints and the
    negated property have a solution exactly when [B < 1001/1000].  The
    script's own bound, 1, is below that threshold. *)
Theorem drift_bound_threshold (B : Q) :
  (satisfiable (constraints_fp ++ [negated_bound return_fp B])
   <-> (B < 1001 # 1000)%Q) /\
  (1 < 1001 # 1000)%Q.
Proof.
  split; [| reflexivity].
  apply bound_threshold with (c := drift_corner_up);
    [| reflexivity | reflexivity].
  intros rho H. apply fp_bound in H. rewrite Q2R_thousandth. lra.
Qed.

(** X7.  In the two-period script the bound 2 is the least one the
    constraints support: with any bound [B] in place of 2, the constraints
    and the negated property have a solution exactly when [B < 2]. *)
Theorem two_period_bound_tight (B : Q) :
  satisfiable (constraints_multi ++ [negated_bound return_multi B])
  <-> (B < 2)%Q.
Proof.
  apply bound_threshold with (c := two_period_corner);
    [| reflexivity | reflexivity].
  intros rho H. apply multi_bound in H. rewrite (Q2R_int 2). lra.
Qed.

(** ** How the three scenarios relate *)

Local Open Scope R_scope.

(** X8.  The drift script is the single-period script plus [epsilon]: its
    constraints are those of [verifloat.py] followed by the two bounds on
    [epsilon], an assignment that meets them meets the single-period
    constraints, and the two return expressions differ by [epsilon], that
    is by at most 0.001 either way. *)
Theorem drift_extends_single_period (rho : string -> R) :
  constraints_fp
  = constraints_single
      ++ [(Real "epsilon" >= Num (-1 # 1000))%z3;
          (Real "epsilon" <= Num (1 # 1000))%z3] /\
  (satisfies rho constraints_fp ->
   satisfies rho constraints_single /\
   evalR rho return_fp = evalR rho return_single + rho "epsilon"%string /\
   - (1 / 1000) <= evalR rho return_fp - evalR rho return_single
                <= 1 / 1000).
Proof.
  split; [reflexivity |].
  rewrite satisfies_constraints_fp, satisfies_constraints_single,
    evalR_return_fp, evalR_return_single.
  intros (W1 & W2 & W3 & Ws & R1 & R2 & R3 & E).
  repeat split; try tauto; lra.
Qed.

Lemma drift_extends_single_period_witness :
  satisfies (valuation drift_corner_up) constraints_fp /\
  satisfies (valuation drift_corner_up) constraints_single.
Proof.
  assert (H : satisfies (valuation drift_corner_up) constraints_fp)
    by (apply models_satisfies; reflexivity).
  split; [exact H |].
  apply (proj2 (drift_extends_single_period (valuation drift_corner_up))).
  exact H.
Defined.

(** X9.  Each period of the two-period script is an instance of the
    single-period one: a valuation meets the two-period constraints exactly
    when its two periods, read with the names [r1], [r2], [r3], both meet
    the single-period constraints, and the total return is the sum of the
    two single-period returns. *)
Theorem two_period_is_two_single_periods (rho : string -> R) :
  (satisfies rho constraints_multi <->
   satisfies (period "1" rho) constraints_single /\
   satisfies (period "2" rho) constraints_single) /\
  evalR rho return_multi
  = evalR (period "1" rho) return_single
    + evalR (period "2" rho) return_single.
Proof.
  split; [| reflexivity].
  rewrite satisfies_constraints_multi, !satisfies_constraints_single.
  unfold period, is_return. simpl. tauto.
Qed.

(** X10.  The three constraint sets are symmetric: negating every return
    (and the drift) keeps an assignment within the constraints and negates
    the return expression.  So an assignment below [-B] exists exactly when
    one above [B] does; the two halves of the negated property mirror each
    other. *)
Theorem constraints_symmetric (rho : string -> R) :
  (satisfies (mirror rho) constraints_single
   <-> satisfies rho constraints_single) /\
  evalR (mirror rho) return_single = - evalR rho return_single /\
  (satisfies (mirror rho) constraints_fp
   <-> satisfies rho constraints_fp) /\
  evalR (mirror rho) return_fp = - evalR rho return_fp /\
  (satisfies (mirror rho) constraints_multi
   <-> satisfies rho constraints_multi) /\
  evalR (mirror rho) return_multi = - evalR rho return_multi.
Proof.
  rewrite !satisfies_constraints_single, !satisfies_constraints_fp,
    !satisfies_constraints_multi, !evalR_return_single, !evalR_return_fp,
    !evalR_return_multi.
  unfold mirror, is_weight. simpl.
  repeat split; intros; try ring;
    repeat match goal with H : _ /\ _ |- _ => destruct H end; lra.
Qed.

(** The weighted sum is bounded by the total weight. *)
Lemma weighted_sum_le_weights (w1 w2 w3 r1 r2 r3 : R) :
  0 <= w1 -> 0 <= w2 -> 0 <= w3 ->
  -1 <= r1 <= 1 -> -1 <= r2 <= 1 -> -1 <= r3 <= 1 ->
  - (w1 + w2 + w3) <= w1 * r1 + w2 * r2 + w3 * r3 <= w1 + w2 + w3.
Proof.
  intros H1 H2 H3 [L1 U1] [L2 U2] [L3 U3].
  assert (A1 : 0 <= w1 * (1 - r1)) by (apply Rmult_le_pos; lra).
  assert (A2 : 0 <= w2 * (1 - r2)) by (apply Rmult_le_pos; lra).
  assert (A3 : 0 <= w3 * (1 - r3)) by (apply Rmult_le_pos; lra).
  assert (B1 : 0 <= w1 * (r1 + 1)) by (apply Rmult_le_pos; lra).
  assert (B2 : 0 <= w2 * (r2 + 1)) by (apply Rmult_le_pos; lra).
  assert (B3 : 0 <= w3 * (r3 + 1)) by (apply Rmult_le_pos; lra).
  split; lra.
Qed.

(** X11.  Every solution of the drift query owes the violation to the
    drift: the return is above 1 with [epsilon] positive, or below -1 with
    [epsilon] negative, and in both cases more than 99.9 percent of the
    portfolio is invested. *)
Theorem drift_violation_needs_drift (rho : string -> R) :
  satisfies rho query_fp ->
  (1 < evalR rho return_fp /\ 0 < rho "epsilon"%string \/
   evalR rho return_fp < -1 /\ rho "epsilon"%string < 0) /\
  1 - 1 / 1000 < rho "w1"%string + rho "w2"%string + rho "w3"%string.
Proof.
  intros H. apply (satisfies_query rho constraints_fp) in H.
  destruct H as [Hc Hn]. revert Hc Hn.
  rewrite satisfies_constraints_fp, evalR_return_fp.
  intros (W1 & W2 & W3 & Ws & R1 & R2 & R3 & E) Hn.
  pose proof (@weighted_sum_le_weights (rho "w1"%string) (rho "w2"%string)
                (rho "w3"%string) (rho "r1"%string) (rho "r2"%string)
                (rho "r3"%string)) as B.
  split; [destruct Hn; [right | left] |]; lra.
Qed.

Lemma drift_violation_needs_drift_witness :
  satisfies (valuation drift_corner_up) query_fp /\
  1 - 1 / 1000 < valuation drift_corner_up "w1"%string
                 + valuation drift_corner_up "w2"%string
                 + valuation drift_corner_up "w3"%string.
Proof.
  assert (H : satisfies (valuation drift_corner_up) query_fp)
    by (apply models_satisfies; reflexivity).
  split; [exact H |].
  exact (proj2 (drift_violation_needs_drift H)).
Defined.

(** X12.  The bounds of the scripts are inclusive: a portfolio that is
    fully invested ([w1 + w2 + w3 = 1]) with weights that are not negative
    and returns anywhere in [-1, 1], the ends included, meets the
    single-period constraints, and the drift constraints as well when
    [epsilon] is anywhere in [-0.001, 0.001]. *)
Theorem fully_invested_admitted (rho : string -> R) :
  0 <= rho "w1"%string -> 0 <= rho "w2"%string -> 0 <= rho "w3"%string ->
  rho "w1"%string + rho "w2"%string + rho "w3"%string = 1 ->
  -1 <= rho "r1"%string <= 1 -> -1 <= rho "r2"%string <= 1 ->
  -1 <= rho "r3"%string <= 1 ->
  satisfies rho constraints_single /\
  (- (1 / 1000) <= rho "epsilon"%string <= 1 / 1000 ->
   satisfies rho constraints_fp).
Proof.
  intros W1 W2 W3 Ws R1 R2 R3.
  rewrite satisfies_constraints_single, satisfies_constraints_fp.
  repeat split; intros; lra.
Qed.

Lemma fully_invested_admitted_witness :
  satisfies (valuation single_corner) constraints_single.
Proof.
  apply (fully_invested_admitted (valuation single_corner));
    unfold valuation; simpl; rewrite ?(Q2R_int 1), ?(Q2R_int 0); lra.
Defined.

Local Close Scope R_scope.
